(** * FAIS Minus: a model of [extract_marks.py]

    Shallow embedding of the marks-processing script: discovery of the
    export file, loading, grade derivation, special-grade overrides,
    integer conversion, withdrawal filter, cohort statistics, interim
    substitution and the per-course CSV export.

    The pandas DataFrame [all_marks] (indexed by [uid]) is a list of
    rows in index order.  Errors that Python raises uncaught are the
    [Err] branch of a small result monad. *)

From Stdlib Require Import ZArith Lia List String Ascii Bool.
Import ListNotations.
Open Scope string_scope.
Open Scope Z_scope.

(** ** Errors and the result monad *)

Inductive py_error : Type :=
| IndexError            (* [possible_sas_exports[0]] on an empty list *)
| KeyError (k : string) (* [config[c]] for a missing course *)
| NameError             (* [config] never bound after a YAML error *)
| ValueError.           (* [astype(int)] on NaN; ambiguous [.at] lookups *)

Inductive result (A : Type) : Type :=
| Ok (a : A)
| Err (e : py_error).
Arguments Ok {A} a.
Arguments Err {A} e.

Definition bind {A B : Type} (m : result A) (k : A -> result B) : result B :=
  match m with
  | Ok a => k a
  | Err e => Err e
  end.

Notation "'let*' x ':=' m 'in' k" := (bind m (fun x => k))
  (at level 200, x pattern, m at level 100, k at level 200).

(** ** Decimal rendering of integers ([str(int)] / f-string) *)

Fixpoint digits_aux (fuel : nat) (n : N) (acc : string) : string :=
  match fuel with
  | O => acc
  | S f =>
      let acc' := String (ascii_of_N (48 + N.modulo n 10)) acc in
      if N.ltb n 10 then acc' else digits_aux f (N.div n 10) acc'
  end.

Definition nstr (n : N) : string := digits_aux (S (N.size_nat n)) n "".

Definition zstr (z : Z) : string :=
  if z <? 0 then "-" ++ nstr (Z.to_N (- z)) else nstr (Z.to_N z).

(** ** Grade derivation: [generate_grade] (lines 94-110)

    [set_0_ncn] is the module-level flag of line 72, [False] in the
    source; it is a parameter here. *)

Definition set_0_ncn_default : bool := false.

Definition generate_grade (set_0_ncn : bool) (mark : Z) : string :=
  if mark =? 0 then (if set_0_ncn then "NCN" else "N")
  else if mark <=? 44 then "N"
  else if mark <=? 49 then "PX"
  else if mark <=? 59 then "P"
  else if mark <=? 69 then "CR"
  else if mark <=? 79 then "D"
  else "HD".

(** The band table of the specification (section 4.2), written from
    its words: lower bound, optional upper bound (inclusive), label. *)

Definition spec_bands (set_0_ncn : bool) : list (Z * option Z * string) :=
  [ (0, Some 0, if set_0_ncn then "NCN" else "N");
    (1, Some 44, "N");
    (45, Some 49, "PX");
    (50, Some 59, "P");
    (60, Some 69, "CR");
    (70, Some 79, "D");
    (80, None, "HD") ].

Definition in_band (m : Z) (b : Z * option Z * string) : bool :=
  let '(lo, hi, _) := b in
  (lo <=? m) && match hi with Some h => m <=? h | None => true end.

Definition derived_labels : list string := ["HD"; "D"; "CR"; "P"; "PX"; "N"; "NCN"].

(** ** Rows of the working table

    One row of [all_marks].  The index label is [uid].  Columns that a
    row added by enlargement does not carry are [None] (NaN); [grade]
    is the only column every row has once grades are added. *)

Inductive MarkV : Type :=
| MNum (z : Z)         (* numeric mark *)
| MCode (s : string).  (* interim code copied into the mark column *)

Record Row : Type := mkRow {
  uid : string;
  student_number : option Z;
  course_code : option string;
  mark : option MarkV;      (* [mark_column = all_marks.columns[1]] *)
  first_name : option string;
  last_name : option string;
  grade : string
}.

Definition Table := list Row.

Definition set_grade (g : string) (r : Row) : Row :=
  mkRow (uid r) (student_number r) (course_code r) (mark r)
        (first_name r) (last_name r) g.

Definition set_mark (m : MarkV) (r : Row) : Row :=
  mkRow (uid r) (student_number r) (course_code r) (Some m)
        (first_name r) (last_name r) (grade r).

(** A row of the exported CSV as parsed by [pd.read_csv]: the
    enrolment reason, the student number, the mark (the second column,
    addressed by position), first and last name. *)

Record InRow : Type := mkInRow {
  enrol_reason : string;
  in_student_number : Z;
  in_mark : Z;
  in_first : string;
  in_last : string
}.

(** Lines 81-84 and 116: course code from the first 8 characters of
    [Enrol Reason], [uid = f'u{x}'], grade from the mark. *)

Definition load_row (set_0_ncn : bool) (r : InRow) : Row :=
  mkRow ("u" ++ zstr (in_student_number r))
        (Some (in_student_number r))
        (Some (substring 0 8 (enrol_reason r)))
        (Some (MNum (in_mark r)))
        (Some (in_first r)) (Some (in_last r))
        (generate_grade set_0_ncn (in_mark r)).

(** [all_marks.course_code.unique()]: first-appearance order. *)

Definition unique_codes (l : list string) : list string :=
  fold_left (fun acc x => if existsb (String.eqb x) acc then acc else app acc [x]) l [].

Definition course_list (rows : list InRow) : list string :=
  unique_codes (map (fun r => substring 0 8 (enrol_reason r)) rows).

(** ** The configuration document [grade_config.yml]

    The scalar fields are kept as the text the f-string of line 189
    renders.  [grades] is [None] when the YAML value is null. *)

Record CourseConfig : Type := mkCourseConfig {
  ctype : string;
  term : string;
  subject : string;
  catalogue : string;
  class_ : string;
  grades : option (list (string * string))
}.

(** [config] is [None] when [yaml.safe_load] failed: the exception is
    printed and the name [config] is never bound. *)

Definition Config := option (list (string * CourseConfig)).

Fixpoint assoc {A : Type} (k : string) (l : list (string * A)) : option A :=
  match l with
  | [] => None
  | (k', v) :: l' => if String.eqb k' k then Some v else assoc k l'
  end.

Definition config_get (config : Config) (c : string) : result CourseConfig :=
  match config with
  | None => Err NameError
  | Some cf => match assoc c cf with
               | Some cc => Ok cc
               | None => Err (KeyError c)
               end
  end.

(** ** [all_marks.at[uid,'grade'] = v]

    On an existing label the cell is overwritten; on a missing label
    pandas falls back to [.loc] and enlarges the frame with a new row
    whose other columns are NaN. *)

Definition blank_row (u g : string) : Row := mkRow u None None None None None g.

Definition has_uid (u : string) (r : Row) : bool := String.eqb (uid r) u.

Definition at_set_grade (u g : string) (t : Table) : Table :=
  if existsb (has_uid u) t
  then map (fun r => if has_uid u r then set_grade g r else r) t
  else app t [blank_row u g].

(** Lines 119-123: the override loop. *)

Definition apply_special (gs : list (string * string)) (t : Table) : Table :=
  fold_left (fun t p => at_set_grade (fst p) (snd p) t) gs t.

Fixpoint apply_overrides (courses : list string) (config : Config) (t : Table)
  : result Table :=
  match courses with
  | [] => Ok t
  | c :: cs =>
      let* cc := config_get config c in
      match grades cc with
      | None => apply_overrides cs config t
      | Some gs => apply_overrides cs config (apply_special gs t)
      end
  end.

(** Lines 126-127: [astype(int)] on [Student Number] and on the mark
    column raises on NaN. *)

Definition to_int_cols (t : Table) : result Table :=
  if forallb (fun r => match student_number r, mark r with
                       | Some _, Some _ => true
                       | _, _ => false end) t
  then Ok t else Err ValueError.

(** Lines 152-153: the withdrawal filter. *)

Definition withdraw (t : Table) : Table :=
  let t1 := filter (fun r => negb (String.eqb (grade r) "WD")) t in
  filter (fun r => negb (String.eqb (grade r) "WN")) t1.

(** ** Cohort statistics: [print_stats] and [print_value_counts]

    The percentage is [counts[grade] * 100/total]: both operands are
    integers converted exactly to doubles (below 2^53), divided with
    round-to-nearest-even, and the double is printed by [:.2f], which
    rounds its exact binary value to two decimals, ties to even.

    [rhe a b] rounds [a/b] to the nearest integer, ties to even. *)

Definition rhe (a b : Z) : Z :=
  let q := a / b in
  let r := a mod b in
  if 2 * r <? b then q
  else if b <? 2 * r then q + 1
  else if Z.even q then q else q + 1.

(** [p / q] rescaled by [2^-e] as the fraction [n / d]. *)

Definition scale (p q e : Z) : Z * Z :=
  if 0 <=? e then (p, q * 2 ^ e) else (p * 2 ^ (- e), q).

(** Exponent of the double nearest to [p / q]: the one that puts the
    significand [p / q * 2^-e] in [[2^52, 2^53)]. *)

Definition dexp (p q : Z) : Z :=
  let e1 := Z.log2 p - Z.log2 q - 53 in
  let '(n, d) := scale p q e1 in
  if n <? 2 ^ 53 * d then e1 else e1 + 1.

(** IEEE-754 binary64 division of two positive integers: significand
    and exponent of the result. *)

Definition div_double (p q : Z) : Z * Z :=
  let e := dexp p q in
  let '(n, d) := scale p q e in
  (rhe n d, e).

(** [format(m * 2^e, '.2f')] as a number of hundredths. *)

Definition fmt2_hundredths (m e : Z) : Z :=
  if 0 <=? e then m * 100 * 2 ^ e else rhe (m * 100) (2 ^ (- e)).

Definition pct_hundredths (count total : Z) : Z :=
  let '(m, e) := div_double (count * 100) total in
  fmt2_hundredths m e.

Definition hundredths_str (k : Z) : string :=
  let r := k mod 100 in
  zstr (k / 100) ++ "." ++ (if r <? 10 then "0" ++ zstr r else zstr r).

Definition report_labels : list string :=
  ["HD"; "D"; "CR"; "P"; "PX"; "N"; "NCN"; "DA"; "RP"; "KU"; "WD"; "WN"].

Definition grade_count (g : string) (t : Table) : nat :=
  List.length (filter (fun r => String.eqb (grade r) g) t).

(** [df.grade.value_counts()[g]]: only values that occur are keys;
    a missing key raises [KeyError]. *)

Definition value_counts_get (t : Table) (g : string) : option nat :=
  match grade_count g t with
  | O => None
  | n => Some n
  end.

Definition value_count_line (g : string) (n total : nat) : string :=
  g ++ ": " ++ zstr (Z.of_nat n) ++ " ("
    ++ hundredths_str (pct_hundredths (Z.of_nat n) (Z.of_nat total)) ++ "%)".

(** The loop of lines 144-148; the bare [except] skips the label. *)

Definition print_value_counts (t : Table) : list string :=
  let total := List.length t in
  flat_map (fun g => match value_counts_get t g with
                     | Some n => [value_count_line g n total]
                     | None => []
                     end) report_labels.

Record Report : Type := mkReport {
  rname : string;
  enrolment : nat;                 (* [len(df.index)] *)
  mark_column : list (option MarkV); (* the column [describe()] runs on *)
  vc_lines : list string
}.

Definition print_stats (name : string) (t : Table) : Report :=
  mkReport name (List.length t) (map mark t) (print_value_counts t).

Definition in_course (c : string) (r : Row) : bool :=
  match course_code r with Some c' => String.eqb c' c | None => false end.

Definition all_reports (courses : list string) (t : Table) : list Report :=
  print_stats "All Cohorts" t
    :: map (fun c => print_stats c (filter (in_course c) t)) courses.

(** Lines 165-169: the PX review list ([None] prints the "No PXs"
    message). *)

Definition sn_text (r : Row) : string :=
  match student_number r with Some z => zstr z | None => "nan" end.

Definition px_review (t : Table) : option (list string) :=
  match filter (fun r => String.eqb (grade r) "PX") t with
  | [] => None
  | px => Some (map (fun r => "u" ++ sn_text r ++ "@anu.edu.au") px)
  end.

(** ** Interim substitution (lines 174-180)

    [all_marks.at[uid,'grade']] on a label that occurs once gives the
    cell; on a repeated label it gives a Series, and [g in interim_codes]
    then raises [ValueError] (ambiguous truth value). *)

Definition interim_codes : list string := ["DA"; "PX"; "RP"; "KU"; "NCN"].

Definition at_get (u : string) (t : Table) : result Row :=
  match filter (has_uid u) t with
  | [r] => Ok r
  | [] => Err (KeyError u)
  | _ => Err ValueError
  end.

(** [all_marks.at[uid,mark_column] = g]: [uid] is taken from the index,
    so the label exists and no enlargement happens. *)

Definition at_set_mark (u : string) (m : MarkV) (t : Table) : Table :=
  map (fun r => if has_uid u r then set_mark m r else r) t.

Fixpoint interim_loop (idx : list string) (t : Table) : result Table :=
  match idx with
  | [] => Ok t
  | u :: us =>
      let* r := at_get u t in
      let g := grade r in
      interim_loop us (if existsb (String.eqb g) interim_codes
                       then at_set_mark u (MCode g) t else t)
  end.

Definition interim_substitution (t : Table) : result Table :=
  interim_loop (map uid t) t.

(** ** CSV export (lines 183-191)

    [to_csv] with the default minimal quoting: a field holding the
    separator, the quote character or a line break is quoted, inner
    quotes doubled.  NaN is written as the empty field.  A file is its
    list of lines. *)

Definition dquote : ascii := ascii_of_nat 34.

Fixpoint escape_quotes (s : string) : string :=
  match s with
  | EmptyString => EmptyString
  | String ch s' =>
      if Ascii.eqb ch dquote then String ch (String ch (escape_quotes s'))
      else String ch (escape_quotes s')
  end.

Definition needs_quote (s : string) : bool :=
  existsb (fun ch => existsb (Ascii.eqb ch)
                       [ascii_of_nat 44; dquote; ascii_of_nat 10; ascii_of_nat 13])
          (list_ascii_of_string s).

Definition quote_minimal (s : string) : string :=
  if needs_quote s then String dquote (escape_quotes s ++ String dquote EmptyString)
  else s.

Definition csv_line (fields : list string) : string :=
  String.concat "," (map quote_minimal fields).

Definition sas_header : list string :=
  ["uid"; "mark"; "grade"; "firstname"; "surname"; "course"].

Definition opt_str (o : option string) : string :=
  match o with Some s => s | None => "" end.

Definition mark_str (o : option MarkV) : string :=
  match o with
  | Some (MNum z) => zstr z
  | Some (MCode s) => s
  | None => ""
  end.

(** [csv_cols = ["Student Number", mark_column, "grade", "First name",
    "Last name", "course_code"]]. *)

Definition csv_fields (r : Row) : list string :=
  [ match student_number r with Some z => zstr z | None => "" end;
    mark_str (mark r); grade r; opt_str (first_name r);
    opt_str (last_name r); opt_str (course_code r) ].

Definition sas_filename (cc : CourseConfig) : string :=
  term cc ++ "-" ++ subject cc ++ "-" ++ catalogue cc ++ "-" ++ class_ cc ++ ".csv".

Definition course_csv (t : Table) (c : string) : list string :=
  csv_line sas_header :: map (fun r => csv_line (csv_fields r)) (filter (in_course c) t).

Fixpoint export_files (courses : list string) (config : Config) (t : Table)
  : result (list (string * list string)) :=
  match courses with
  | [] => Ok []
  | c :: cs =>
      let* cc := config_get config c in
      let* rest := export_files cs config t in
      Ok ((sas_filename cc, course_csv t c) :: rest)
  end.

(** ** File discovery (lines 76-80) *)

Fixpoint contains (needle hay : string) : bool :=
  prefix needle hay ||
  match hay with
  | EmptyString => false
  | String _ hay' => contains needle hay'
  end.

Definition sas_candidates (listing : list string) : list string :=
  filter (contains "for_SAS") listing.

Definition discover (listing : list string) : result string :=
  match sas_candidates listing with
  | [] => Err IndexError
  | f :: _ => Ok f
  end.

(** ** The whole script *)

Record Output : Type := mkOutput {
  reports : list Report;
  px_list : option (list string);
  files : list (string * list string)
}.

(** Loading, grading, overrides and the integer conversion: the table
    as it stands at line 128, with the course list of line 85. *)

Definition prepare (set_0_ncn : bool) (rows : list InRow) (config : Config)
  : result (list string * Table) :=
  let t0 := map (load_row set_0_ncn) rows in
  let courses := course_list rows in
  let* t1 := apply_overrides courses config t0 in
  let* t2 := to_int_cols t1 in
  Ok (courses, t2).

Definition run_loaded (set_0_ncn : bool) (rows : list InRow) (config : Config)
  : result Output :=
  let* ct := prepare set_0_ncn rows config in
  let courses := fst ct in
  let t3 := withdraw (snd ct) in
  let reps := all_reports courses t3 in
  let px := px_review t3 in
  let* t4 := interim_substitution t3 in
  let* fs := export_files courses config t4 in
  Ok (mkOutput reps px fs).

(** [read] is [pd.read_csv] on the file system. *)

Definition run (set_0_ncn : bool) (listing : list string)
  (read : string -> list InRow) (config : Config) : result Output :=
  let* f := discover listing in
  run_loaded set_0_ncn (read f) config.

(** ** Auxiliary definitions for the proofs *)

Definition withdrawn (g : string) : bool := String.eqb g "WD" || String.eqb g "WN".

(** The mark column after interim substitution, row by row. *)

Definition interim_row (r : Row) : Row :=
  if existsb (String.eqb (grade r)) interim_codes then set_mark (MCode (grade r)) r else r.

(** The override entries in the order the loop of lines 119-123
    visits them: courses in table order, entries in mapping order. *)

Fixpoint override_writes (courses : list string) (config : Config)
  : result (list (string * string)) :=
  match courses with
  | [] => Ok []
  | c :: cs =>
      let* cc := config_get config c in
      let* rest := override_writes cs config in
      Ok (app (match grades cc with None => [] | Some gs => gs end) rest)
  end.

(** The code of the last entry naming [u]. *)

Fixpoint last_write (u : string) (w : list (string * string)) : option string :=
  match w with
  | [] => None
  | (k, v) :: w' =>
      match last_write u w' with
      | Some x => Some x
      | None => if String.eqb k u then Some v else None
      end
  end.

Definition upd_row (w : list (string * string)) (r : Row) : Row :=
  match last_write (uid r) w with Some v => set_grade v r | None => r end.

Ltac split_marks :=
  repeat match goal with
         | |- context [Z.eqb ?a ?b] => destruct (Z.eqb_spec a b)
         | |- context [Z.leb ?a ?b] => destruct (Z.leb_spec a b)
         end.

(** Order of the derived grades, fails first; NCN counts as a fail
    like N. *)

Definition grade_rank (g : string) : Z :=
  if String.eqb g "HD" then 5
  else if String.eqb g "D" then 4
  else if String.eqb g "CR" then 3
  else if String.eqb g "P" then 2
  else if String.eqb g "PX" then 1
  else 0.

(** ** Sample inputs *)

Definition ex_jane : InRow := mkInRow "COMP1100" 1234567 82 "Jane" "Doe".
Definition ex_ann : InRow := mkInRow "COMP1100" 1111111 65 "Ann" "Lee".
Definition ex_bo : InRow := mkInRow "COMP2100" 2222222 47 "Bo" "Kim".

Definition ex_course (sub cat cls : string) (gs : option (list (string * string)))
  : CourseConfig := mkCourseConfig "UGRD" "2610" sub cat cls gs.

(** One course, COMP1100, with the given special grades. *)

Definition ex_cfg1 (gs : option (list (string * string))) : Config :=
  Some [("COMP1100", ex_course "COMP" "1100" "4321" gs)].

(** Two courses whose mappings both name [u1111111]. *)

Definition ex_cfg2 : Config :=
  Some [("COMP1100", ex_course "COMP" "1100" "4321" (Some [("u1111111", "DA")]));
        ("COMP2100", ex_course "COMP" "2100" "8765" (Some [("u1111111", "RP")]))].

(** A cohort of 20000 students, 203 of them with HD. *)

Definition ex_cohort : Table :=
  map (fun i => load_row false
                  (mkInRow "COMP1100" (1000000 + Z.of_nat i)
                           (if Nat.ltb i 203 then 85 else 30) "A" "B"))
      (seq 0 (200 * 100)).

(** * Properties *)

(** ** Grade derivation *)

(** C3: for every mark [m >= 0], [generate_grade] returns one of
    HD, D, CR, P, PX, N, NCN; exactly one of the seven bands of the
    specification contains [m] (no gap, no overlap), and the grade is
    that band's label (with the zero band honouring [set_0_ncn]). *)
Theorem generate_grade_partition (set_0_ncn : bool) (m : Z) (Hm : 0 <= m) :
  In (generate_grade set_0_ncn m) derived_labels /\
  List.length (filter (in_band m) (spec_bands set_0_ncn)) = 1%nat /\
  (forall b, In b (spec_bands set_0_ncn) -> in_band m b = true ->
             generate_grade set_0_ncn m = snd b).
Proof.
  split; [|split].
  - unfold generate_grade, derived_labels.
    destruct set_0_ncn; split_marks; simpl; tauto.
  - unfold spec_bands, in_band; simpl; split_marks; simpl; try reflexivity; lia.
  - intros b Hb Hin.
    unfold spec_bands in Hb; simpl in Hb.
    repeat destruct Hb as [<- | Hb]; try contradiction;
      unfold in_band in Hin; simpl in Hin |- *;
      apply andb_prop in Hin; destruct Hin as [H1 H2];
      try apply Z.leb_le in H1; try apply Z.leb_le in H2;
      unfold generate_grade; split_marks; try reflexivity; lia.
Qed.

Lemma generate_grade_partition_witness :
  0 <= 82 /\ generate_grade false 82 = "HD" /\
  List.length (filter (in_band 82) (spec_bands false)) = 1%nat.
Proof.
  split; [lia|]. split; [reflexivity|].
  apply (generate_grade_partition false 82); lia.
Defined.

(** C10: a negative mark is graded [N] whatever the zero flag. *)
Theorem generate_grade_negative (set_0_ncn : bool) (m : Z) (Hm : m < 0) :
  generate_grade set_0_ncn m = "N".
Proof.
  unfold generate_grade.
  destruct (Z.eqb_spec m 0); [lia|].
  destruct (Z.leb_spec m 44); [reflexivity | lia].
Qed.

Lemma generate_grade_negative_witness :
  -5 < 0 /\ generate_grade true (-5) = "N".
Proof. split; [lia | apply generate_grade_negative; lia]. Defined.

(** ** Withdrawal filter *)

(** C4: the withdrawal filter keeps, in order and unmodified, exactly
    the rows whose grade is neither WD nor WN, and the row count drops
    by the number of WD rows plus the number of WN rows. *)
Theorem withdraw_exact (t : Table) :
  withdraw t = filter (fun r => negb (withdrawn (grade r))) t /\
  (forall r, In r (withdraw t) <-> In r t /\ grade r <> "WD" /\ grade r <> "WN") /\
  (List.length (withdraw t) + grade_count "WD" t + grade_count "WN" t
   = List.length t)%nat.
Proof.
  unfold withdraw, grade_count, withdrawn.
  split; [|split].
  - induction t as [|r t IH]; simpl; [reflexivity|].
    destruct (String.eqb_spec (grade r) "WD") as [E|E]; simpl.
    + exact IH.
    + destruct (String.eqb_spec (grade r) "WN") as [E'|E']; simpl;
        rewrite IH; reflexivity.
  - intros r. rewrite !filter_In.
    destruct (String.eqb_spec (grade r) "WD"); destruct (String.eqb_spec (grade r) "WN");
      simpl; intuition congruence.
  - induction t as [|r t IH]; simpl; [reflexivity|].
    destruct (String.eqb_spec (grade r) "WD") as [E|E]; simpl.
    + rewrite E; simpl; lia.
    + destruct (String.eqb_spec (grade r) "WN") as [E'|E']; simpl; lia.
Qed.

(** ** File discovery *)

(** C9: discovery takes the first listed name containing [for_SAS];
    with no such name the run stops with [IndexError], otherwise it
    proceeds on that first file whatever other names also match. *)
Theorem discover_first_match (set_0_ncn : bool) (listing : list string)
  (read : string -> list InRow) (config : Config) :
  sas_candidates listing = filter (contains "for_SAS") listing /\
  discover listing = match sas_candidates listing with
                     | [] => Err IndexError
                     | f :: _ => Ok f
                     end /\
  run set_0_ncn listing read config =
    match sas_candidates listing with
    | [] => Err IndexError
    | f :: _ => run_loaded set_0_ncn (read f) config
    end.
Proof.
  split; [reflexivity|]. split; [reflexivity|].
  unfold run, discover. destruct (sas_candidates listing); reflexivity.
Qed.

(** ** Interim substitution *)

Lemma interim_row_idem (r : Row) : interim_row (interim_row r) = interim_row r.
Proof.
  unfold interim_row.
  destruct (existsb (String.eqb (grade r)) interim_codes) eqn:E;
    cbn [grade set_mark]; rewrite E; reflexivity.
Qed.

Lemma interim_row_uid (r : Row) : uid (interim_row r) = uid r.
Proof. unfold interim_row; destruct existsb; reflexivity. Qed.

Lemma filter_uid_single (u : string) (t : Table) :
  NoDup (map uid t) -> In u (map uid t) ->
  exists r0, filter (has_uid u) t = [r0] /\ In r0 t /\ uid r0 = u.
Proof.
  induction t as [|r t IH]; simpl; intros Hnd Hin; [contradiction|].
  inversion Hnd as [|? ? Hnot Hnd']; subst.
  unfold has_uid at 1. destruct (String.eqb_spec (uid r) u) as [E|E].
  - exists r. split; [|split; [left; reflexivity | exact E]].
    f_equal. rewrite (filter_ext_in _ (fun _ => false)); [apply filter_false|].
    intros x Hx. unfold has_uid. apply String.eqb_neq. intros Ex.
    apply Hnot. rewrite E, <- Ex. apply in_map. exact Hx.
  - destruct Hin as [Hin|Hin]; [congruence|].
    destruct (IH Hnd' Hin) as (r0 & H1 & H2 & H3).
    exists r0. split; [exact H1 | split; [right; exact H2 | exact H3]].
Qed.

Lemma interim_loop_spec (us : list string) (t : Table) :
  NoDup (map uid t) -> (forall u, In u us -> In u (map uid t)) ->
  interim_loop us t =
    Ok (map (fun r => if existsb (String.eqb (uid r)) us then interim_row r else r) t).
Proof.
  revert t. induction us as [|u us IH]; intros t Hnd Hsub; cbn [interim_loop existsb].
  - f_equal. rewrite <- (map_id t) at 1. apply map_ext. reflexivity.
  - destruct (filter_uid_single u t Hnd (Hsub u (or_introl eq_refl)))
      as (r0 & Hf & Hr0 & Hu0).
    unfold at_get, bind. rewrite Hf. cbv beta iota zeta.
    assert (Hone : forall r, In r t -> has_uid u r = true -> r = r0).
    { intros r Hr Hh. assert (In r (filter (has_uid u) t)) as Hr'
        by (apply filter_In; split; assumption).
      rewrite Hf in Hr'. destruct Hr' as [->|[]]; reflexivity. }
    set (t' := if existsb (String.eqb (grade r0)) interim_codes
               then at_set_mark u (MCode (grade r0)) t else t).
    assert (Ht' : t' = map (fun r => if has_uid u r then interim_row r else r) t).
    { unfold t', at_set_mark.
      destruct (existsb (String.eqb (grade r0)) interim_codes) eqn:Eg.
      - apply map_ext_in. intros r Hr.
        destruct (has_uid u r) eqn:Hh; [|reflexivity].
        rewrite (Hone r Hr Hh). unfold interim_row. rewrite Eg. reflexivity.
      - rewrite <- (map_id t) at 1. apply map_ext_in. intros r Hr.
        destruct (has_uid u r) eqn:Hh; [|reflexivity].
        rewrite (Hone r Hr Hh). unfold interim_row. rewrite Eg. reflexivity. }
    assert (Huids : map uid t' = map uid t).
    { rewrite Ht', map_map. apply map_ext. intros r.
      destruct has_uid; [apply interim_row_uid | reflexivity]. }
    rewrite IH.
    + f_equal. rewrite Ht', map_map. apply map_ext. intros r.
      unfold has_uid. destruct (String.eqb_spec (uid r) u) as [E|E].
      * rewrite interim_row_uid. simpl.
        destruct (existsb (String.eqb (uid r)) us);
          [apply interim_row_idem | reflexivity].
      * reflexivity.
    + rewrite Huids. exact Hnd.
    + intros u' Hu'. rewrite Huids. apply Hsub. right. exact Hu'.
Qed.

(** C7: on a table whose index is unique, interim substitution writes
    the grade code into the mark column exactly on the rows graded DA,
    PX, RP, KU or NCN; every other row keeps its mark, and no column
    other than the mark column changes on any row. *)
Theorem interim_substitution_frame (t : Table) (Hu : NoDup (map uid t)) :
  exists t', interim_substitution t = Ok t' /\
  Forall2 (fun r r' =>
      uid r' = uid r /\ student_number r' = student_number r /\
      course_code r' = course_code r /\ first_name r' = first_name r /\
      last_name r' = last_name r /\ grade r' = grade r /\
      (In (grade r) ["DA"; "PX"; "RP"; "KU"; "NCN"] -> mark r' = Some (MCode (grade r))) /\
      (~ In (grade r) ["DA"; "PX"; "RP"; "KU"; "NCN"] -> mark r' = mark r))
    t t'.
Proof.
  exists (map interim_row t). split.
  - unfold interim_substitution. rewrite interim_loop_spec; [|exact Hu|tauto].
    f_equal. apply map_ext_in. intros r Hr.
    assert (existsb (String.eqb (uid r)) (map uid t) = true) as E.
    { apply existsb_exists. exists (uid r). split;
        [apply in_map; exact Hr | apply String.eqb_refl]. }
    rewrite E. reflexivity.
  - clear Hu. induction t as [|r t IH]; simpl; constructor; [|exact IH].
    unfold interim_row.
    destruct (existsb (String.eqb (grade r)) interim_codes) eqn:E.
    + apply existsb_exists in E. destruct E as (g & Hg & Eg).
      apply String.eqb_eq in Eg. subst g.
      simpl. repeat split; try reflexivity. intros Hn. contradiction.
    + repeat split; try reflexivity. intros Hin. exfalso.
      assert (existsb (String.eqb (grade r)) interim_codes = true) as E'.
      { apply existsb_exists. exists (grade r). split;
          [exact Hin | apply String.eqb_refl]. }
      congruence.
Qed.

(** ** Override application *)

Lemma apply_special_app (w1 w2 : list (string * string)) (t : Table) :
  apply_special (app w1 w2) t = apply_special w2 (apply_special w1 t).
Proof. unfold apply_special. apply fold_left_app. Qed.

Lemma apply_overrides_writes (courses : list string) (config : Config) (t : Table) :
  apply_overrides courses config t =
    let* w := override_writes courses config in Ok (apply_special w t).
Proof.
  revert t. induction courses as [|c cs IH]; intros t; simpl; [reflexivity|].
  destruct (config_get config c) as [cc|e]; simpl; [|reflexivity].
  destruct (grades cc) as [gs|]; rewrite IH;
    destruct (override_writes cs config) as [rest|e]; simpl; try reflexivity.
  rewrite apply_special_app. reflexivity.
Qed.

Lemma at_set_grade_uids (u g : string) (t : Table) (x : string) :
  In x (map uid t) -> In x (map uid (at_set_grade u g t)).
Proof.
  unfold at_set_grade. destruct existsb.
  - rewrite map_map. intros H. apply in_map_iff in H. destruct H as (r & <- & Hr).
    apply in_map_iff. exists r. split; [|exact Hr].
    destruct has_uid; reflexivity.
  - rewrite map_app. intros H. apply in_or_app. left. exact H.
Qed.

Lemma at_set_grade_new (u g : string) (t : Table) :
  In u (map uid (at_set_grade u g t)).
Proof.
  unfold at_set_grade. destruct (existsb (has_uid u) t) eqn:E.
  - apply existsb_exists in E. destruct E as (r & Hr & Hh).
    apply in_map_iff. exists (set_grade g r). split.
    + unfold has_uid in Hh. apply String.eqb_eq in Hh. exact Hh.
    + apply in_map_iff. exists r. rewrite Hh. split; [reflexivity | exact Hr].
  - rewrite map_app. apply in_or_app. right. left. reflexivity.
Qed.

Lemma apply_special_uids (w : list (string * string)) (t : Table) (x : string) :
  In x (map uid t) -> In x (map uid (apply_special w t)).
Proof.
  revert t. induction w as [|[k v] w IH]; intros t H; simpl; [exact H|].
  apply IH. apply at_set_grade_uids. exact H.
Qed.

Lemma apply_special_keys (w : list (string * string)) (t : Table) (k : string) :
  In k (map fst w) -> In k (map uid (apply_special w t)).
Proof.
  revert t. induction w as [|[k' v] w IH]; intros t H; simpl in *; [contradiction|].
  destruct H as [<-|H].
  - apply apply_special_uids. apply at_set_grade_new.
  - apply IH. exact H.
Qed.

Lemma at_set_grade_present (u g : string) (t : Table) :
  In u (map uid t) ->
  at_set_grade u g t = map (fun r => if has_uid u r then set_grade g r else r) t.
Proof.
  intros H. unfold at_set_grade.
  replace (existsb (has_uid u) t) with true; [reflexivity|].
  symmetry. apply existsb_exists. apply in_map_iff in H.
  destruct H as (r & Hu & Hr). exists r. split; [exact Hr|].
  unfold has_uid. apply String.eqb_eq. exact Hu.
Qed.

Lemma apply_special_present (w : list (string * string)) (t : Table) :
  (forall k, In k (map fst w) -> In k (map uid t)) ->
  apply_special w t = map (upd_row w) t.
Proof.
  revert t. induction w as [|[k v] w IH]; intros t Hk; simpl.
  - rewrite <- (map_id t) at 1. apply map_ext. intros r. reflexivity.
  - rewrite at_set_grade_present by (apply Hk; left; reflexivity).
    rewrite IH.
    + rewrite map_map. apply map_ext. intros r. unfold upd_row, has_uid.
      destruct (String.eqb_spec (uid r) k) as [E|E]; simpl;
        rewrite ?E; destruct (last_write _ w); try reflexivity;
        rewrite ?String.eqb_refl; try reflexivity.
      destruct (String.eqb_spec k (uid r)); [congruence | reflexivity].
    + intros k' Hk'. rewrite map_map.
      replace (map (fun x => uid (if has_uid k x then set_grade v x else x)) t)
        with (map uid t).
      * apply Hk. right. exact Hk'.
      * apply map_ext. intros r. destruct has_uid; reflexivity.
Qed.

Lemma at_set_grade_other (u g : string) (t : Table) (r : Row) :
  In r (at_set_grade u g t) -> uid r <> u -> In r t.
Proof.
  unfold at_set_grade. destruct existsb.
  - intros H Hne. apply in_map_iff in H. destruct H as (r0 & <- & Hr0).
    destruct (has_uid u r0) eqn:Hh; [|exact Hr0].
    exfalso. apply Hne. unfold has_uid in Hh. apply String.eqb_eq in Hh. exact Hh.
  - intros H Hne. apply in_app_or in H. destruct H as [H|[<-|[]]]; [exact H|].
    exfalso. apply Hne. reflexivity.
Qed.

Lemma at_set_grade_same (u g : string) (t : Table) (r : Row) :
  In r (at_set_grade u g t) -> uid r = u -> grade r = g.
Proof.
  unfold at_set_grade. destruct (existsb (has_uid u) t) eqn:E.
  - intros H Hu. apply in_map_iff in H. destruct H as (r0 & <- & Hr0).
    destruct (has_uid u r0) eqn:Hh; [reflexivity|].
    unfold has_uid in Hh. rewrite Hu in Hh. rewrite String.eqb_refl in Hh. discriminate.
  - intros H Hu. apply in_app_or in H. destruct H as [H|[<-|[]]]; [|reflexivity].
    exfalso. assert (existsb (has_uid u) t = true) as E'; [|congruence].
    apply existsb_exists. exists r. split; [exact H|].
    unfold has_uid. apply String.eqb_eq. exact Hu.
Qed.

Lemma apply_special_untouched (w : list (string * string)) (t : Table) (r : Row) :
  In r (apply_special w t) -> last_write (uid r) w = None -> In r t.
Proof.
  revert t. induction w as [|[k v] w IH]; intros t H Hl; simpl in *; [exact H|].
  destruct (last_write (uid r) w); [discriminate|].
  destruct (String.eqb_spec k (uid r)) as [E|E]; [discriminate|].
  apply (at_set_grade_other k v); [apply IH; [exact H | reflexivity] | congruence].
Qed.

Lemma apply_special_last (w : list (string * string)) (t : Table) (r : Row) (v : string) :
  In r (apply_special w t) -> last_write (uid r) w = Some v -> grade r = v.
Proof.
  revert t. induction w as [|[k v'] w IH]; intros t H Hl; simpl in *; [discriminate|].
  destruct (last_write (uid r) w) as [x|] eqn:Ex.
  - injection Hl as <-. exact (IH _ H eq_refl).
  - destruct (String.eqb_spec k (uid r)) as [E|E]; [|discriminate].
    injection Hl as <-.
    apply (at_set_grade_same k v' t); [|congruence].
    exact (apply_special_untouched w _ r H Ex).
Qed.

Lemma set_grade_same (r : Row) : set_grade (grade r) r = r.
Proof. destruct r; reflexivity. Qed.

Lemma apply_special_idem (w : list (string * string)) (t : Table) :
  apply_special w (apply_special w t) = apply_special w t.
Proof.
  rewrite (apply_special_present w (apply_special w t)).
  - rewrite <- (map_id (apply_special w t)) at 2. apply map_ext_in.
    intros r Hr. unfold upd_row.
    destruct (last_write (uid r) w) as [v|] eqn:E; [|reflexivity].
    rewrite <- (apply_special_last w t r v Hr E). apply set_grade_same.
  - intros k Hk. apply apply_special_keys. exact Hk.
Qed.

(** C6 (amended): after override application every row whose id is
    named by an override entry of a course of the table carries the
    code of the last such entry (courses in table order, entries in
    mapping order), whatever grade was derived; applying the same
    configuration again leaves the table as it is. *)
Theorem overrides_last_write_idempotent (courses : list string) (config : Config)
  (t t' : Table) (H : apply_overrides courses config t = Ok t') :
  exists w, override_writes courses config = Ok w /\
    (forall r, In r t' -> forall v, last_write (uid r) w = Some v -> grade r = v) /\
    apply_overrides courses config t' = Ok t'.
Proof.
  rewrite apply_overrides_writes in H.
  destruct (override_writes courses config) as [w|e] eqn:Ew; simpl in H; [|discriminate].
  injection H as <-. exists w. split; [reflexivity|]. split.
  - intros r Hr v Hv. exact (apply_special_last w t r v Hr Hv).
  - rewrite apply_overrides_writes, Ew. simpl. rewrite apply_special_idem. reflexivity.
Qed.

Lemma overrides_last_write_idempotent_witness :
  apply_overrides ["COMP1100"] (ex_cfg1 (Some [("u1111111", "DA")]))
    [load_row false ex_ann] =
    Ok [set_grade "DA" (load_row false ex_ann)] /\
  exists w, override_writes ["COMP1100"] (ex_cfg1 (Some [("u1111111", "DA")])) = Ok w.
Proof.
  assert (H : apply_overrides ["COMP1100"] (ex_cfg1 (Some [("u1111111", "DA")]))
                [load_row false ex_ann] = Ok [set_grade "DA" (load_row false ex_ann)])
    by reflexivity.
  split; [exact H|].
  destruct (overrides_last_write_idempotent _ _ _ _ H) as (w & Hw & _).
  exists w. exact Hw.
Defined.

(** C6 is refuted by a student listed under two courses: Ann is
    enrolled in COMP1100, whose mapping gives her DA, but the COMP2100
    mapping, visited later, also names her and her grade ends as RP. *)
Lemma overrides_cross_course_counterexample :
  exists t', apply_overrides (course_list [ex_ann; ex_bo]) ex_cfg2
               (map (load_row false) [ex_ann; ex_bo]) = Ok t' /\
  Exists (fun r => uid r = "u1111111" /\ course_code r = Some "COMP1100" /\
                   grade r = "RP" /\ grade r <> "DA") t'.
Proof.
  eexists. split; [reflexivity|].
  apply Exists_cons_hd. repeat split; try reflexivity. discriminate.
Qed.

(** ** Overrides naming an absent student *)

Lemma at_set_grade_keeps_missing (u g : string) (t : Table) :
  (exists r, In r t /\ student_number r = None) ->
  exists r, In r (at_set_grade u g t) /\ student_number r = None.
Proof.
  intros (r & Hr & Hn). unfold at_set_grade. destruct existsb.
  - exists (if has_uid u r then set_grade g r else r). split.
    + apply in_map_iff. exists r. split; [reflexivity | exact Hr].
    + destruct has_uid; exact Hn.
  - exists r. split; [apply in_or_app; left; exact Hr | exact Hn].
Qed.

Lemma apply_special_keeps_missing (w : list (string * string)) (t : Table) :
  (exists r, In r t /\ student_number r = None) ->
  exists r, In r (apply_special w t) /\ student_number r = None.
Proof.
  revert t. induction w as [|[k v] w IH]; intros t H; simpl; [exact H|].
  apply IH. apply at_set_grade_keeps_missing. exact H.
Qed.

Lemma to_int_cols_missing (t : Table) :
  (exists r, In r t /\ student_number r = None) -> to_int_cols t = Err ValueError.
Proof.
  intros (r & Hr & Hn). unfold to_int_cols.
  replace (forallb _ t) with false; [reflexivity|].
  symmetry. apply not_true_iff_false. intros Hf.
  rewrite forallb_forall in Hf. specialize (Hf r Hr). rewrite Hn in Hf. discriminate.
Qed.

(** C2 (amended): an override entry whose id is absent from the table
    does not leave the table unchanged: pandas appends a new row keyed
    by that id, holding the override code as its grade and NaN in every
    other column.  The entry itself raises nothing, but whatever
    entries follow, the integer conversion of the student-number column
    then raises [ValueError]. *)
Theorem override_absent_uid_appends (u g : string) (t : Table)
  (Habs : ~ In u (map uid t)) :
  at_set_grade u g t = app t [blank_row u g] /\
  (forall w, to_int_cols (apply_special w (at_set_grade u g t)) = Err ValueError).
Proof.
  assert (E : at_set_grade u g t = app t [blank_row u g]).
  { unfold at_set_grade. replace (existsb (has_uid u) t) with false; [reflexivity|].
    symmetry. apply not_true_iff_false. intros Hx.
    apply existsb_exists in Hx. destruct Hx as (r & Hr & Hh).
    apply Habs. unfold has_uid in Hh. apply String.eqb_eq in Hh.
    rewrite <- Hh. apply in_map. exact Hr. }
  split; [exact E|].
  intros w. apply to_int_cols_missing. apply apply_special_keeps_missing.
  rewrite E. exists (blank_row u g). split; [|reflexivity].
  apply in_or_app. right. left. reflexivity.
Qed.

Lemma override_absent_uid_appends_witness :
  ~ In "u7654321" (map uid [load_row false ex_jane]) /\
  at_set_grade "u7654321" "DA" [load_row false ex_jane]
    = [load_row false ex_jane; blank_row "u7654321" "DA"].
Proof.
  assert (H : ~ In "u7654321" (map uid [load_row false ex_jane])).
  { simpl. intros [E|[]]. discriminate E. }
  split; [exact H|].
  exact (proj1 (override_absent_uid_appends "u7654321" "DA" _ H)).
Defined.

(** C2 is refuted on Jane's one-row table with an override for the
    absent [u7654321]: a second row appears and the run stops with
    [ValueError]. *)
Lemma override_absent_uid_counterexample :
  apply_overrides ["COMP1100"] (ex_cfg1 (Some [("u7654321", "DA")]))
    [load_row false ex_jane]
    = Ok [load_row false ex_jane; blank_row "u7654321" "DA"] /\
  prepare false [ex_jane] (ex_cfg1 (Some [("u7654321", "DA")])) = Err ValueError.
Proof. split; reflexivity. Qed.

Lemma interim_substitution_frame_witness :
  NoDup (map uid (map (load_row false) [ex_ann; ex_bo])) /\
  exists t', interim_substitution (map (load_row false) [ex_ann; ex_bo]) = Ok t'.
Proof.
  assert (H : NoDup (map uid (map (load_row false) [ex_ann; ex_bo]))).
  { simpl. constructor; [simpl; intros [E|[]]; discriminate E|].
    constructor; [intros []|constructor]. }
  split; [exact H|].
  destruct (interim_substitution_frame _ H) as (t' & Ht' & _).
  exists t'. exact Ht'.
Defined.

(** ** The printed percentage *)

Lemma rhe_spec (a b : Z) : 0 < b -> -b <= 2 * (a - b * rhe a b) <= b.
Proof.
  intros Hb. unfold rhe.
  pose proof (Z.div_mod a b ltac:(lia)) as Hdm.
  pose proof (Z.mod_pos_bound a b Hb) as Hr.
  set (q := a / b) in *. set (r := a mod b) in *.
  destruct (Z.ltb_spec (2 * r) b); [lia|].
  destruct (Z.ltb_spec b (2 * r)); [lia|].
  destruct (Z.even q); lia.
Qed.

Lemma scale_step (p q e n1 d1 n2 d2 : Z) :
  scale p q e = (n1, d1) -> scale p q (e + 1) = (n2, d2) -> n1 * d2 = 2 * n2 * d1.
Proof.
  unfold scale. intros H1 H2.
  destruct (Z.leb_spec 0 e); destruct (Z.leb_spec 0 (e + 1));
    injection H1 as <- <-; injection H2 as <- <-; try lia.
  - rewrite Z.pow_add_r, Z.pow_1_r by lia. generalize (2 ^ e). intros x. ring.
  - assert (e = -1) as -> by lia.
    replace (- -1) with 1 by lia. replace (-1 + 1) with 0 by lia.
    rewrite Z.pow_1_r, Z.pow_0_r. ring.
  - replace (- e) with (- (e + 1) + 1) by lia.
    rewrite Z.pow_add_r, Z.pow_1_r by lia. generalize (2 ^ (- (e + 1))). intros x. ring.
Qed.

Lemma scale_log2 (p q : Z) : 0 < p -> 0 < q ->
  forall n d, scale p q (Z.log2 p - Z.log2 q - 53) = (n, d) ->
  d * 4503599627370496 <= n /\ 0 < d.
Proof.
  intros Hp Hq n d Hs.
  destruct (Z.log2_spec p Hp) as [Hp1 Hp2].
  destruct (Z.log2_spec q Hq) as [Hq1 Hq2].
  pose proof (Z.log2_nonneg p). pose proof (Z.log2_nonneg q).
  set (lp := Z.log2 p) in *. set (lq := Z.log2 q) in *.
  rewrite Z.pow_succ_r in Hq2 by lia.
  change 4503599627370496 with (2 ^ 52).
  unfold scale in Hs.
  destruct (Z.leb_spec 0 (lp - lq - 53)) as [He|He]; injection Hs as <- <-.
  - assert (E : 2 ^ lp = 2 * 2 ^ lq * 2 ^ (lp - lq - 53) * 2 ^ 52).
    { rewrite <- Z.pow_succ_r by lia. rewrite <- !Z.pow_add_r by lia.
      f_equal. lia. }
    pose proof (Z.pow_pos_nonneg 2 (lp - lq - 53) ltac:(lia) He).
    split; [|nia].
    assert (q * 2 ^ (lp - lq - 53) * 2 ^ 52 < 2 * 2 ^ lq * 2 ^ (lp - lq - 53) * 2 ^ 52);
      [|lia].
    apply Z.mul_lt_mono_pos_r; [apply Z.pow_pos_nonneg; lia|].
    apply Z.mul_lt_mono_pos_r; lia.
  - assert (E : 2 ^ lp * 2 ^ (- (lp - lq - 53)) = 2 * 2 ^ lq * 2 ^ 52).
    { rewrite <- Z.pow_succ_r by lia. rewrite <- !Z.pow_add_r by lia.
      f_equal. lia. }
    pose proof (Z.pow_pos_nonneg 2 (- (lp - lq - 53)) ltac:(lia) ltac:(lia)).
    split; [|lia].
    assert (2 ^ lp * 2 ^ (- (lp - lq - 53)) <= p * 2 ^ (- (lp - lq - 53))) by nia.
    assert (q * 2 ^ 52 < 2 * 2 ^ lq * 2 ^ 52); [|lia].
    apply Z.mul_lt_mono_pos_r; [apply Z.pow_pos_nonneg|]; lia.
Qed.

Lemma dexp_norm (p q : Z) : 0 < p -> 0 < q ->
  forall n d, scale p q (dexp p q) = (n, d) -> d * 4503599627370496 <= n /\ 0 < d.
Proof.
  intros Hp Hq n d Hs. unfold dexp in Hs.
  destruct (scale p q (Z.log2 p - Z.log2 q - 53)) as [n1 d1] eqn:H1.
  destruct (scale_log2 p q Hp Hq n1 d1 H1) as [N1 D1].
  destruct (Z.ltb_spec n1 (2 ^ 53 * d1)) as [Hlt|Hge].
  - rewrite H1 in Hs. injection Hs as <- <-. split; assumption.
  - pose proof (scale_step _ _ _ _ _ _ _ H1 Hs) as Hst.
    change (2 ^ 53) with 9007199254740992 in Hge.
    assert (0 < d).
    { unfold scale in Hs.
      destruct (Z.leb_spec 0 (Z.log2 p - Z.log2 q - 53 + 1)); injection Hs as <- <-;
        [apply Z.mul_pos_pos; [lia | apply Z.pow_pos_nonneg; lia] | lia]. }
    split; [|assumption]. nia.
Qed.

(** Two roundings, each off by at most half a unit, stay within half
    a hundredth of the exact quotient when the first one is relatively
    below 2^-53 and the denominator is small. *)

Lemma round_chain (S A B P Q X : Z) :
  0 < S -> 0 <= P <= 100 * Q -> 0 <= Q -> 20000 * Q < 9007199254740992 ->
  -(S * P) <= A * 9007199254740992 <= S * P -> -S <= B <= S ->
  S * X = 200 * A + Q * B -> -Q <= X <= Q.
Proof.
  intros HS HP HQ HQb HA HB HX.
  assert (E1 : S * P <= 100 * (S * Q)) by nia.
  assert (E2 : 20000 * (S * Q) < S * 9007199254740992) by nia.
  assert (HA' : -S < 200 * A < S) by lia.
  assert (HQB : - (S * Q) <= Q * B <= S * Q) by nia.
  split.
  - destruct (Z.le_gt_cases (- Q) X) as [|Hlt]; [assumption|].
    assert (S * X <= S * (- Q - 1)) by nia. lia.
  - destruct (Z.le_gt_cases X Q) as [|Hlt]; [assumption|].
    assert (S * (Q + 1) <= S * X) by nia. lia.
Qed.

Lemma pct_hundredths_nearest (c t : Z) :
  1 <= c <= t -> 20000 * t < 9007199254740992 ->
  - t <= 2 * (10000 * c - t * pct_hundredths c t) <= t.
Proof.
  intros Hc Ht. unfold pct_hundredths, div_double.
  destruct (scale (c * 100) t (dexp (c * 100) t)) as [n d] eqn:Hs.
  destruct (dexp_norm (c * 100) t ltac:(lia) ltac:(lia) n d Hs) as [Hn Hd].
  pose proof (rhe_spec n d Hd) as Hm.
  set (m := rhe n d) in *.
  unfold fmt2_hundredths. unfold scale in Hs.
  destruct (Z.leb_spec 0 (dexp (c * 100) t)) as [He|He];
    injection Hs as Hn' Hd'.
  - set (e := dexp (c * 100) t) in *.
    apply (round_chain 1 (n - d * m) 0 (c * 100) t); lia.
  - set (e := dexp (c * 100) t) in *.
    set (S := 2 ^ (- e)).
    assert (HS : 0 < S) by (apply Z.pow_pos_nonneg; lia).
    pose proof (rhe_spec (m * 100) S HS) as Hk.
    apply (round_chain S (n - d * m) (2 * (m * 100 - S * rhe (m * 100) S)) (c * 100) t);
      try lia.
    all: subst n d; fold S; try nia; ring.
Qed.

Lemma grade_count_le (g : string) (t : Table) : (grade_count g t <= List.length t)%nat.
Proof.
  unfold grade_count. induction t as [|r t IH]; simpl; [lia|].
  destruct String.eqb; simpl; lia.
Qed.

Lemma print_value_counts_shape (t : Table) (labels : list string) :
  flat_map (fun g => match value_counts_get t g with
                     | Some n => [value_count_line g n (List.length t)]
                     | None => []
                     end) labels =
  map (fun g => value_count_line g (grade_count g t) (List.length t))
      (filter (fun g => negb (Nat.eqb (grade_count g t) 0)) labels).
Proof.
  induction labels as [|g labels IH]; simpl; [reflexivity|].
  rewrite IH. unfold value_counts_get.
  destruct (grade_count g t) eqn:E; simpl; rewrite ?E; reflexivity.
Qed.

(** C8 (amended): the distribution lines follow the label order HD, D,
    CR, P, PX, N, NCN, DA, RP, KU, WD, WN, a label that does not occur
    gives no line, and each printed percentage is a nearest hundredth
    to [count * 100 / total]: within half a hundredth of it, so equal to
    the value rounded to two decimals except at an exact half, where
    either neighbour may be printed (the double is rounded ties-to-even).
    This needs fewer than 2^53 / 20000 rows. *)
Theorem print_value_counts_nearest (t : Table)
  (Ht : 20000 * Z.of_nat (List.length t) < 9007199254740992) :
  print_value_counts t =
    map (fun g => value_count_line g (grade_count g t) (List.length t))
        (filter (fun g => negb (Nat.eqb (grade_count g t) 0)) report_labels) /\
  (forall g, (0 < grade_count g t)%nat ->
     - Z.of_nat (List.length t)
       <= 2 * (10000 * Z.of_nat (grade_count g t)
               - Z.of_nat (List.length t)
                 * pct_hundredths (Z.of_nat (grade_count g t)) (Z.of_nat (List.length t)))
       <= Z.of_nat (List.length t)).
Proof.
  split.
  - apply print_value_counts_shape.
  - intros g Hg. pose proof (grade_count_le g t).
    apply pct_hundredths_nearest; lia.
Qed.

Lemma print_value_counts_nearest_witness :
  20000 * Z.of_nat (List.length (map (load_row false) [ex_ann; ex_bo])) < 9007199254740992 /\
  print_value_counts (map (load_row false) [ex_ann; ex_bo]) = ["CR: 1 (50.00%)"; "PX: 1 (50.00%)"].
Proof.
  assert (H : 20000 * Z.of_nat (List.length (map (load_row false) [ex_ann; ex_bo]))
              < 9007199254740992) by (simpl; lia).
  split; [exact H|].
  rewrite (proj1 (print_value_counts_nearest _ H)). vm_compute. reflexivity.
Defined.

(** C8 is refuted by 203 HD among 20000 rows: 203 * 100 / 20000 is
    exactly 1.015, which rounds to 1.02 half-up and half-to-even, but
    the nearest double lies below 1.015 and the line reads 1.01%. *)
Lemma print_value_counts_rounding_counterexample :
  Z.of_nat (List.length ex_cohort) = 20000 /\
  Z.of_nat (grade_count "HD" ex_cohort) = 203 /\
  print_value_counts ex_cohort = ["HD: 203 (1.01%)"; "N: 19797 (98.98%)"] /\
  203 * 10000 * 2 = 101 * 20000 * 2 + 20000 /\
  rhe (203 * 10000) 20000 = 102.
Proof. repeat split; vm_compute; reflexivity. Qed.

(** ** Order of the statistics and the withdrawal filter *)

Lemma grade_count_absent (g : string) (s : Table) :
  (forall r, In r s -> grade r <> g) -> grade_count g s = 0%nat.
Proof.
  unfold grade_count. induction s as [|r s IH]; intros H; simpl; [reflexivity|].
  destruct (String.eqb_spec (grade r) g) as [E|E].
  - exfalso. exact (H r (or_introl eq_refl) E).
  - apply IH. intros r' Hr'. apply H. right. exact Hr'.
Qed.

Lemma value_count_line_label (g g' : string) (n n' tot tot' : nat) :
  In g' report_labels -> In g ["WD"; "WN"] ->
  value_count_line g' n' tot' = value_count_line g n tot -> g' = g.
Proof.
  intros Hg' Hg E. unfold value_count_line in E.
  simpl in Hg, Hg'.
  destruct Hg as [<-|[<-|[]]];
    repeat destruct Hg' as [<-|Hg']; try contradiction; try reflexivity;
    simpl in E; discriminate E.
Qed.

Lemma no_withdrawn_lines (s : Table) (g : string) (n tot : nat) :
  (forall r, In r s -> grade r <> "WD" /\ grade r <> "WN") ->
  In g ["WD"; "WN"] -> ~ In (value_count_line g n tot) (print_value_counts s).
Proof.
  intros Hs Hg Hin. unfold print_value_counts in Hin.
  rewrite print_value_counts_shape in Hin.
  apply in_map_iff in Hin. destruct Hin as (g' & E & Hg').
  apply filter_In in Hg'. destruct Hg' as [Hl Hc].
  pose proof (value_count_line_label g g' _ _ _ _ Hl Hg E) as ->.
  rewrite grade_count_absent in Hc; [discriminate|].
  intros r Hr. specialize (Hs r Hr).
  simpl in Hg. destruct Hg as [<-|[<-|[]]]; tauto.
Qed.

(** C1 (amended): the statistics are printed after the withdrawal
    filter.  Every report (the whole cohort, then each course) is
    computed on the table with its WD and WN rows already removed, so
    no enrolment count, mark statistic or distribution includes them,
    and no WD or WN line is ever printed. *)
Theorem reports_after_withdrawal (set_0_ncn : bool) (rows : list InRow)
  (config : Config) (out : Output) (H : run_loaded set_0_ncn rows config = Ok out) :
  exists courses t,
    prepare set_0_ncn rows config = Ok (courses, t) /\
    reports out = all_reports courses (withdraw t) /\
    Forall (fun rep => forall g n tot, In g ["WD"; "WN"] ->
                         ~ In (value_count_line g n tot) (vc_lines rep))
           (reports out).
Proof.
  unfold run_loaded in H.
  destruct (prepare set_0_ncn rows config) as [[courses t]|e] eqn:Hp;
    simpl in H; [|discriminate].
  destruct (interim_substitution (withdraw t)); simpl in H; [|discriminate].
  destruct (export_files courses config a); simpl in H; [|discriminate].
  injection H as <-. exists courses, t. split; [reflexivity|]. split; [reflexivity|].
  simpl. constructor.
  - intros g n tot Hg. apply no_withdrawn_lines; [|exact Hg].
    intros r Hr. apply (proj1 (proj2 (withdraw_exact t)) r) in Hr. tauto.
  - apply Forall_forall. intros rep Hrep. apply in_map_iff in Hrep.
    destruct Hrep as (c & <- & _). intros g n tot Hg. simpl.
    apply no_withdrawn_lines; [|exact Hg].
    intros r Hr. apply filter_In in Hr. destruct Hr as [Hr _].
    apply (proj1 (proj2 (withdraw_exact t)) r) in Hr. tauto.
Qed.

Lemma reports_after_withdrawal_witness :
  run_loaded false [ex_jane] (ex_cfg1 None) =
    Ok (mkOutput (all_reports ["COMP1100"] [load_row false ex_jane]) None
           [("2610-COMP-1100-4321.csv",
             ["uid,mark,grade,firstname,surname,course";
              "1234567,82,HD,Jane,Doe,COMP1100"])]) /\
  exists courses t, prepare false [ex_jane] (ex_cfg1 None) = Ok (courses, t).
Proof.
  assert (H : run_loaded false [ex_jane] (ex_cfg1 None) =
    Ok (mkOutput (all_reports ["COMP1100"] [load_row false ex_jane]) None
           [("2610-COMP-1100-4321.csv",
             ["uid,mark,grade,firstname,surname,course";
              "1234567,82,HD,Jane,Doe,COMP1100"])])) by reflexivity.
  split; [exact H|].
  destruct (reports_after_withdrawal _ _ _ _ H) as (courses & t & Hp & _).
  exists courses, t. exact Hp.
Defined.

(** C1 is refuted by Jane overridden to WD: both reports count no row
    and print no WD line, although her row was in the table after the
    overrides. *)
Lemma reports_after_withdrawal_counterexample :
  prepare false [ex_jane] (ex_cfg1 (Some [("u1234567", "WD")]))
    = Ok (["COMP1100"], [set_grade "WD" (load_row false ex_jane)]) /\
  exists out, run_loaded false [ex_jane] (ex_cfg1 (Some [("u1234567", "WD")])) = Ok out /\
    map enrolment (reports out) = [0%nat; 0%nat] /\
    map vc_lines (reports out) = [[]; []].
Proof.
  split; [reflexivity|]. eexists. split; [reflexivity|]. split; reflexivity.
Qed.

(** ** The end-to-end example *)

(** C5 (amended): Jane's row (COMP1100, mark 82, student number
    1234567), with the zero flag off and a COMP1100 configuration with
    subject COMP, catalogue 1100 and no special grades, is graded HD,
    keeps the mark 82, and is written to [{term}-COMP-1100-{class}.csv]
    under the fixed header; its [uid] column holds the bare student
    number [1234567], not [u1234567]. *)
Theorem jane_end_to_end (ty tm cls : string) (gs : option (list (string * string)))
  (Hgs : gs = None \/ gs = Some []) :
  exists out,
    run_loaded false [ex_jane]
      (Some [("COMP1100", mkCourseConfig ty tm "COMP" "1100" cls gs)]) = Ok out /\
    files out = [(tm ++ "-COMP-1100-" ++ cls ++ ".csv",
                  ["uid,mark,grade,firstname,surname,course";
                   "1234567,82,HD,Jane,Doe,COMP1100"])].
Proof.
  destruct Hgs as [-> | ->]; eexists; split; reflexivity.
Qed.

Lemma jane_end_to_end_witness :
  (None : option (list (string * string))) = None /\
  exists out,
    run_loaded false [ex_jane]
      (Some [("COMP1100", mkCourseConfig "UGRD" "2610" "COMP" "1100" "4321" None)]) = Ok out.
Proof.
  split; [reflexivity|].
  destruct (jane_end_to_end "UGRD" "2610" "4321" None (or_introl eq_refl)) as (out & H & _).
  exists out. exact H.
Defined.

(** C5 is refuted on that row: the line written is
    [1234567,82,HD,Jane,Doe,COMP1100], and no line of the file reads
    [u1234567,82,HD,Jane,Doe,COMP1100]. *)
Lemma jane_uid_column_counterexample :
  exists out, run_loaded false [ex_jane] (ex_cfg1 None) = Ok out /\
    files out = [("2610-COMP-1100-4321.csv",
                  ["uid,mark,grade,firstname,surname,course";
                   "1234567,82,HD,Jane,Doe,COMP1100"])] /\
    Forall (fun f => ~ In "u1234567,82,HD,Jane,Doe,COMP1100" (snd f)) (files out).
Proof.
  eexists. split; [reflexivity|]. split; [reflexivity|].
  constructor; [|constructor]. simpl. intros [E|[E|[]]]; discriminate E.
Qed.

(** * Further properties of the script *)

(** ** The course list *)

Lemma unique_codes_aux (l acc : list string) :
  NoDup acc ->
  NoDup (fold_left (fun acc x => if existsb (String.eqb x) acc then acc else app acc [x]) l acc) /\
  (forall x, In x (fold_left (fun acc x => if existsb (String.eqb x) acc then acc else app acc [x]) l acc)
             <-> In x acc \/ In x l).
Proof.
  revert acc. induction l as [|y l IH]; intros acc Hnd; simpl.
  - split; [exact Hnd | tauto].
  - destruct (existsb (String.eqb y) acc) eqn:E.
    + destruct (IH acc Hnd) as [H1 H2]. split; [exact H1|].
      intros x. rewrite H2. split; [tauto|].
      intros [H|[<-|H]]; try tauto. left.
      apply existsb_exists in E. destruct E as (z & Hz & Ez).
      apply String.eqb_eq in Ez. subst. exact Hz.
    + assert (Hnd' : NoDup (app acc [y])).
      { apply NoDup_app; [exact Hnd | constructor; [intros []|constructor] |].
        intros x Hx [<-|[]]. apply not_true_iff_false in E. apply E.
        apply existsb_exists. exists y. split; [exact Hx | apply String.eqb_refl]. }
      destruct (IH _ Hnd') as [H1 H2]. split; [exact H1|].
      intros x. rewrite H2, in_app_iff. simpl. tauto.
Qed.

(** Line 85: the course list holds every course code of the table once
    and nothing else. *)
Theorem course_list_exact (rows : list InRow) :
  NoDup (course_list rows) /\
  (forall c, In c (course_list rows) <->
             exists r, In r rows /\ substring 0 8 (enrol_reason r) = c).
Proof.
  unfold course_list, unique_codes.
  destruct (unique_codes_aux (map (fun r => substring 0 8 (enrol_reason r)) rows) []
              (NoDup_nil _)) as [H1 H2].
  split; [exact H1|]. intros c. rewrite H2, in_map_iff. simpl. firstorder.
Qed.

(** ** Grade derivation on every integer *)

(** Lines 94-110: whatever the mark, the grade is one of HD, D, CR, P,
    PX, N, NCN, and it is NCN exactly for a mark of 0 with the zero
    flag on; DA, RP, KU, WD and WN never come from a mark. *)
Theorem generate_grade_range (set_0_ncn : bool) (m : Z) :
  In (generate_grade set_0_ncn m) derived_labels /\
  (generate_grade set_0_ncn m = "NCN" <-> set_0_ncn = true /\ m = 0).
Proof.
  unfold generate_grade, derived_labels.
  destruct set_0_ncn; split_marks; simpl;
    (split; [intuition reflexivity |
             split; [intros E; (discriminate E || (split; [reflexivity | lia])) |
                     intros [E1 E2]; (reflexivity || discriminate E1 || lia)]]).
Qed.

(** Lines 94-110: a higher mark never gets a lower grade. *)
Theorem generate_grade_monotone (set_0_ncn : bool) (m1 m2 : Z) (Hle : m1 <= m2) :
  grade_rank (generate_grade set_0_ncn m1) <= grade_rank (generate_grade set_0_ncn m2).
Proof.
  unfold generate_grade.
  destruct set_0_ncn; split_marks; unfold grade_rank; simpl; lia.
Qed.

Lemma generate_grade_monotone_witness :
  45 <= 80 /\ grade_rank (generate_grade false 45) <= grade_rank (generate_grade false 80).
Proof. split; [lia | apply generate_grade_monotone; lia]. Defined.

(** ** Edge cases of the whole run *)

(** An export with no rows: one empty whole-cohort report, no PX list,
    no file, and the configuration is never read. *)
Theorem run_loaded_empty (set_0_ncn : bool) (config : Config) :
  run_loaded set_0_ncn [] config = Ok (mkOutput [mkReport "All Cohorts" 0 [] []] None []).
Proof. reflexivity. Qed.

(** Lines 88-92 and 120: when the YAML parse failed, any non-empty
    export stops with [NameError] at the first override lookup. *)
Theorem run_loaded_no_config (set_0_ncn : bool) (rows : list InRow)
  (Hne : rows <> []) :
  prepare set_0_ncn rows None = Err NameError /\
  run_loaded set_0_ncn rows None = Err NameError.
Proof.
  assert (Hc : exists c cs, course_list rows = c :: cs).
  { destruct rows as [|r rs]; [congruence|].
    destruct (course_list (r :: rs)) as [|c cs] eqn:E; [|eauto].
    exfalso. destruct (proj2 (course_list_exact (r :: rs)) (substring 0 8 (enrol_reason r)))
      as [_ H]. rewrite E in H. apply H. exists r. split; [left|]; reflexivity. }
  destruct Hc as (c & cs & Hc).
  unfold run_loaded, prepare. rewrite Hc. split; reflexivity.
Qed.

Lemma run_loaded_no_config_witness :
  [ex_jane] <> [] /\ run_loaded false [ex_jane] None = Err NameError.
Proof.
  assert (H : [ex_jane] <> []) by discriminate.
  split; [exact H | exact (proj2 (run_loaded_no_config false _ H))].
Defined.

(** ** Percentages of a one-grade subset *)

Lemma pct_hundredths_all (n : Z) :
  1 <= n -> 20000 * n < 9007199254740992 -> pct_hundredths n n = 10000.
Proof.
  intros H1 H2. pose proof (pct_hundredths_nearest n n ltac:(lia) H2) as H.
  set (k := pct_hundredths n n) in *.
  assert (-1 <= 2 * (10000 - k) <= 1) by nia. lia.
Qed.

(** Lines 140-148: when every row of a non-empty subset has the same
    reported grade, the distribution is the single line for that grade
    at 100.00%. *)
Theorem print_value_counts_single (t : Table) (g : string)
  (Hne : t <> []) (Hg : In g report_labels)
  (Hall : forall r, In r t -> grade r = g)
  (Ht : 20000 * Z.of_nat (List.length t) < 9007199254740992) :
  print_value_counts t = [g ++ ": " ++ zstr (Z.of_nat (List.length t)) ++ " (100.00%)"].
Proof.
  unfold print_value_counts. rewrite print_value_counts_shape.
  assert (Hcnt : grade_count g t = List.length t).
  { unfold grade_count. rewrite (filter_ext_in _ (fun _ => true)); [apply f_equal, filter_true|].
    intros r Hr. rewrite (Hall r Hr). apply String.eqb_refl. }
  rewrite (filter_ext_in _ (fun g' => String.eqb g' g)).
  - assert (Hf : filter (fun g' => String.eqb g' g) report_labels = [g]).
    { simpl in Hg. repeat destruct Hg as [<-|Hg]; try contradiction; reflexivity. }
    rewrite Hf. simpl. unfold value_count_line. rewrite Hcnt.
    rewrite pct_hundredths_all.
    + reflexivity.
    + destruct t; [congruence|]. simpl. lia.
    + exact Ht.
  - intros g' _. destruct (String.eqb_spec g' g) as [->|Hne'].
    + rewrite Hcnt. destruct t; [congruence|]. reflexivity.
    + rewrite grade_count_absent; [reflexivity|].
      intros r Hr. rewrite (Hall r Hr). congruence.
Qed.

Lemma print_value_counts_single_witness :
  [load_row false ex_jane] <> [] /\ In "HD" report_labels /\
  print_value_counts [load_row false ex_jane] = ["HD: 1 (100.00%)"].
Proof.
  assert (H1 : [load_row false ex_jane] <> []) by discriminate.
  assert (H2 : In "HD" report_labels) by (left; reflexivity).
  split; [exact H1|]. split; [exact H2|].
  rewrite (print_value_counts_single _ "HD" H1 H2).
  - reflexivity.
  - intros r [<-|[]]. reflexivity.
  - simpl. lia.
Defined.
